(** * nextwork-rag-api: the query handler of [app.py]

    A shallow embedding of the two request handlers of [app.py] ([query]
    and [root]) and of the collaborators they talk to (the vector-store
    collection and the generation backend), followed by the properties of
    the handlers.

    Python strings are modelled as [string]; the values the handlers
    return as a small JSON type; a call on a collaborator as a node of a
    program tree whose continuation receives the collaborator's reply.  The
    tree is run against an environment that answers each call with a reply
    or an exception and may change the state of the world.  The
    environment stands for the module-level singletons of [app.py]: the
    collection opened at start-up and the [ollama] client. *)

From Stdlib Require Import String Ascii List Arith Bool Lia.
Import ListNotations.

Set Warnings "-register-all".

Local Open Scope list_scope.
Local Open Scope string_scope.

(** ** Python-level notions *)

Module Py.

(** Exceptions.  [IndexError] is what a list subscript out of range
    raises; a collaborator may raise anything. *)
Inductive exn : Type :=
| IndexError
| KeyError
| TypeError
| ConnectionError (detail : string)
| RuntimeError (detail : string).

(** The line feed, written [\n] in the source. *)
Definition LF : string := String "010" EmptyString.

(** Truth value of a possibly-[None] list, as tested by [x if l else y]:
    [None] and the empty list are false, everything else is true. *)
Definition truthy {A : Type} (l : option (list A)) : bool :=
  match l with
  | None => false
  | Some [] => false
  | Some (_ :: _) => true
  end.

(** [l[i]] on a list: [IndexError] when [i] is out of range. *)
Definition subscript {A : Type} (l : list A) (i : nat) : exn + A :=
  match nth_error l i with
  | Some x => inr x
  | None => inl IndexError
  end.

(** [needle in hay] on strings. *)
Fixpoint contains (needle hay : string) : bool :=
  String.prefix needle hay ||
  match hay with
  | EmptyString => false
  | String _ hay' => contains needle hay'
  end.

(** Values that are serialised to JSON.  A [dict] keeps the order in
    which its keys were inserted, hence the association list. *)
Inductive json : Type :=
| JStr (s : string)
| JObj (fields : list (string * json)).

(** [d[k]] on a JSON object, as an option. *)
Definition field (k : string) (v : json) : option json :=
  match v with
  | JStr _ => None
  | JObj fields =>
      match find (fun kv => String.eqb (fst kv) k) fields with
      | Some kv => Some (snd kv)
      | None => None
      end
  end.

Definition keys (v : json) : list string :=
  match v with
  | JStr _ => []
  | JObj fields => map fst fields
  end.

End Py.

(** ** The collaborators' interfaces *)

Module Chroma.

(** The part of a query result the handler reads: [documents] is absent
    ([None]) or holds one list of texts per query text. *)
Record QueryResult : Type := mkQueryResult
  { documents : option (list (list string)) }.

End Chroma.

Module Ollama.

Record GenerateResponse : Type := mkGenerateResponse
  { response : string }.

End Ollama.

(** ** Programs over the collaborators *)

Module Prog.
Import Py.

(** A call on a collaborator.  [CollectionQuery] and [OllamaGenerate]
    are the two the handler makes; the collection object it holds also
    offers the writes below. *)
Inductive call : Type :=
| CollectionQuery (query_texts : list string) (n_results : nat)
| CollectionAdd (ids documents : list string)
| CollectionUpdate (ids documents : list string)
| CollectionDelete (ids : list string)
| OllamaGenerate (model prompt : string).

Definition reply (c : call) : Type :=
  match c with
  | CollectionQuery _ _ => Chroma.QueryResult
  | OllamaGenerate _ _ => Ollama.GenerateResponse
  | _ => unit
  end.

Definition is_write (c : call) : bool :=
  match c with
  | CollectionAdd _ _ | CollectionUpdate _ _ | CollectionDelete _ => true
  | _ => false
  end.

Definition is_query (c : call) : bool :=
  match c with CollectionQuery _ _ => true | _ => false end.

Definition is_generate (c : call) : bool :=
  match c with OllamaGenerate _ _ => true | _ => false end.

(** A handler body: it returns, raises, calls a collaborator and goes on
    with the reply, or guards a block with [try: ... except ...]. *)
Inductive prog (A : Type) : Type :=
| Ret (a : A)
| Raise (e : exn)
| Call (c : call) (k : reply c -> prog A)
| Try (body : prog A) (handler : exn -> prog A).

Arguments Ret {A} a.
Arguments Raise {A} e.
Arguments Call {A} c k.
Arguments Try {A} body handler.

Notation "x <- 'call' c ;; k" := (Call c (fun x => k))
  (at level 100, c at next level, right associativity, only parsing).

(** An expression that may raise, followed by the rest of the body. *)
Definition eval {A B : Type} (v : exn + A) (k : A -> prog B) : prog B :=
  match v with
  | inl e => Raise e
  | inr a => k a
  end.

Notation "x <- 'eval' v ;; k" := (eval v (fun x => k))
  (at level 100, v at next level, right associativity, only parsing).

(** What a run leaves behind: the calls made, in order, the value
    returned or the exception that escaped, and the world afterwards. *)
Record outcome (W A : Type) : Type := mkOutcome
  { trace : list call;
    result : exn + A;
    final : W }.

Arguments mkOutcome {W A} trace result final.
Arguments trace {W A} o.
Arguments result {W A} o.
Arguments final {W A} o.

(** An environment answers a call in a world with a reply or an
    exception, and gives the world after the call. *)
Definition env (W : Type) : Type :=
  forall c : call, W -> (exn + reply c) * W.

(** Running a body.  An exception raised by a call escapes the body
    unless a [Try] around it catches it; a handler of a [Try] runs in the
    world the failed block left. *)
Fixpoint run {W A : Type} (E : env W) (p : prog A) (w : W) : outcome W A :=
  match p with
  | Ret a => mkOutcome [] (inr a) w
  | Raise e => mkOutcome [] (inl e) w
  | Call c k =>
      match E c w with
      | (inl e, w') => mkOutcome [c] (inl e) w'
      | (inr r, w') =>
          let o := run E (k r) w' in
          mkOutcome (c :: trace o) (result o) (final o)
      end
  | Try body handler =>
      let o := run E body w in
      match result o with
      | inr _ => o
      | inl e =>
          let o' := run E (handler e) (final o) in
          mkOutcome (trace o ++ trace o') (result o') (final o')
      end
  end.

End Prog.

(** ** app.py *)

Module App.
Import Py Prog.

(** The conditional expression bound to [context]: the first text of the
    first list of [results["documents"]] if [results["documents"]] is
    true, else the empty string. *)
Definition context (results : Chroma.QueryResult) : exn + string :=
  if truthy (Chroma.documents results) then
    match Chroma.documents results with
    | None => inl TypeError
    | Some docs =>
        match subscript docs 0 with
        | inl e => inl e
        | inr first => subscript first 0
        end
    end
  else inr EmptyString.

(** [f"Context:\n{context}\n\nQuestion: {q}\n\nAnswer clearly and concisely:"] *)
Definition prompt (context q : string) : string :=
  "Context:" ++ LF ++ context ++ LF ++ LF ++ "Question: " ++ q
    ++ LF ++ LF ++ "Answer clearly and concisely:".

Definition model : string := "tinyllama".

(** [def query(q: str)] *)
Definition query (q : string) : prog json :=
  results <- call CollectionQuery [q] 1 ;;
  context <- eval context results ;;
  answer <- call OllamaGenerate model (prompt context q) ;;
  Ret (JObj [("answer", JStr (Ollama.response answer))]).

(** [def root()] *)
Definition root : prog json :=
  Ret (JObj
    [("message", JStr "NextWork RAG API is running");
     ("endpoints", JObj
        [("POST /query", JStr "Query the knowledge base with a question");
         ("GET /docs", JStr "Interactive API documentation (Swagger UI)");
         ("GET /redoc", JStr "Alternative API documentation (ReDoc)")])]).

End App.

(** ** Test doubles *)

Module Doubles.
Import Py Prog.

(** A stub pair of collaborators: the store answers every query with
    [store], the backend answers with [backend model prompt].  The world
    is the number of calls served so far. *)
Definition stub (store : list string -> nat -> exn + Chroma.QueryResult)
    (backend : string -> string -> exn + Ollama.GenerateResponse)
    : env nat :=
  fun c n =>
    match c return (exn + reply c) * nat with
    | CollectionQuery texts k => (store texts k, S n)
    | OllamaGenerate m p => (backend m p, S n)
    | CollectionAdd _ _ => (inr tt, S n)
    | CollectionUpdate _ _ => (inr tt, S n)
    | CollectionDelete _ => (inr tt, S n)
    end.

(** A backend that answers with the prompt it was given. *)
Definition echo (_ p : string) : exn + Ollama.GenerateResponse :=
  inr (Ollama.mkGenerateResponse p).

Definition returns (docs : option (list (list string)))
    (_ : list string) (_ : nat) : exn + Chroma.QueryResult :=
  inr (Chroma.mkQueryResult docs).

Definition fails {R : Type} (e : exn) (_ : list string) (_ : nat)
    : exn + R :=
  inl e.

Definition down (e : exn) (_ _ : string) : exn + Ollama.GenerateResponse :=
  inl e.

(** An in-memory collection: identifiers with their texts, in insertion
    order.  A query answers, for each query text, with the first [k]
    texts; writes change the collection; the backend echoes. *)
Definition memory : Type := list (string * string).

Definition mem_b (x : string) (l : list string) : bool :=
  existsb (String.eqb x) l.

Definition in_memory : env memory :=
  fun c m =>
    match c return (exn + reply c) * memory with
    | CollectionQuery texts k =>
        (inr (Chroma.mkQueryResult
                (Some (map (fun _ => firstn k (map snd m)) texts))), m)
    | CollectionAdd ids docs => (inr tt, (m ++ combine ids docs)%list)
    | CollectionUpdate ids docs =>
        (inr tt,
         map (fun kv =>
                match find (fun u => String.eqb (fst u) (fst kv))
                           (combine ids docs) with
                | Some u => u
                | None => kv
                end) m)
    | CollectionDelete ids =>
        (inr tt, filter (fun kv => negb (mem_b (fst kv) ids)) m)
    | OllamaGenerate _ p => (inr (Ollama.mkGenerateResponse p), m)
    end.

End Doubles.

(** ** Vocabulary of the statements *)

Module Obs.
Import Py Prog App.

(** The two calls of the handler. *)
Definition lookup (q : string) : call := CollectionQuery [q] 1.

Definition generation (ctx q : string) : call :=
  OllamaGenerate model (prompt ctx q).

(** The value returned for a reply of the backend. *)
Definition answer_of (a : Ollama.GenerateResponse) : json :=
  JObj [("answer", JStr (Ollama.response a))].

(** The fixed parts of the prompt template. *)
Definition head_part : string := "Context:" ++ LF.
Definition middle_part : string := LF ++ LF ++ "Question: ".
Definition tail_part : string := LF ++ LF ++ "Answer clearly and concisely:".

(** "Context:", three line feeds, "Question: q": what the template gives
    around an empty context; and the same with two line feeds. *)
Definition marker3 (q : string) : string :=
  "Context:" ++ LF ++ LF ++ LF ++ "Question: " ++ q.

Definition marker2 (q : string) : string :=
  "Context:" ++ LF ++ LF ++ "Question: " ++ q.

(** The four ways a request to [query] can go. *)
Inductive query_run {W : Type} (E : env W) (q : string) (w : W)
  : outcome W json -> Prop :=
| StoreRaised e w1 :
    E (lookup q) w = (inl e, w1) ->
    query_run E q w (mkOutcome [lookup q] (inl e) w1)
| ContextRaised r w1 e :
    E (lookup q) w = (inr r, w1) ->
    context r = inl e ->
    query_run E q w (mkOutcome [lookup q] (inl e) w1)
| BackendRaised r w1 ctx e w2 :
    E (lookup q) w = (inr r, w1) ->
    context r = inr ctx ->
    E (generation ctx q) w1 = (inl e, w2) ->
    query_run E q w (mkOutcome [lookup q; generation ctx q] (inl e) w2)
| Returned r w1 ctx a w2 :
    E (lookup q) w = (inr r, w1) ->
    context r = inr ctx ->
    E (generation ctx q) w1 = (inr a, w2) ->
    query_run E q w
      (mkOutcome [lookup q; generation ctx q] (inr (answer_of a)) w2).

(** [view] is what stays of the world when nothing is written: the
    content of the store, and whatever the backend's answers depend on.
    Calls that are not writes keep it, and the answers to them are
    determined by it. *)
Definition reads_keep {W S : Type} (E : env W) (view : W -> S) : Prop :=
  forall c w, is_write c = false -> view (snd (E c w)) = view w.

Definition answers_by_view {W S : Type} (E : env W) (view : W -> S) : Prop :=
  forall c w1 w2, is_write c = false -> view w1 = view w2 ->
                  fst (E c w1) = fst (E c w2).

(** The scenario of the capital of France. *)
Definition paris : string := "Paris is the capital of France.".
Definition capital : string := "What is the capital of France?".

End Obs.

(** ** Strings *)

Section Strings.
Import Py.

Lemma append_assoc' (a b c : string) : (a ++ b) ++ c = a ++ b ++ c.
Proof.
  induction a as [|x a IH]; simpl; [reflexivity | now rewrite IH].
Qed.

Lemma append_length' (a b : string) :
  String.length (a ++ b) = String.length a + String.length b.
Proof.
  induction a as [|x a IH]; simpl; [reflexivity | now rewrite IH].
Qed.

Lemma prefix_append (s post : string) : String.prefix s (s ++ post) = true.
Proof.
  induction s as [|x s IH]; simpl; [now destruct post|].
  destruct (ascii_dec x x) as [_|N]; [exact IH | now elim N].
Qed.

Lemma prefix_split (s h : string) :
  String.prefix s h = true -> exists post, h = s ++ post.
Proof.
  revert h; induction s as [|x s IH]; intros h H.
  - now exists h.
  - destruct h as [|y h]; simpl in H; [discriminate|].
    destruct (ascii_dec x y) as [->|_]; [|discriminate].
    destruct (IH _ H) as [post ->]. now exists post.
Qed.

Lemma contains_sound (n h : string) :
  contains n h = true -> exists pre post, h = pre ++ n ++ post.
Proof.
  induction h as [|y h IH]; cbn [contains]; intros H.
  - rewrite orb_false_r in H. destruct (prefix_split _ _ H) as [post E].
    now exists EmptyString, post.
  - apply orb_true_iff in H. destruct H as [H|H].
    + destruct (prefix_split _ _ H) as [post E].
      now exists EmptyString, post.
    + destruct (IH H) as (pre & post & ->).
      now exists (String y pre), post.
Qed.

Lemma contains_complete (pre n post : string) :
  contains n (pre ++ n ++ post) = true.
Proof.
  induction pre as [|y pre IH].
  - cbn [append]. destruct (n ++ post) eqn:E; cbn [contains];
      rewrite <- E, prefix_append; reflexivity.
  - cbn [append contains]. rewrite IH. apply orb_true_r.
Qed.

Lemma contains_spec (n h : string) :
  contains n h = true <-> exists pre post, h = pre ++ n ++ post.
Proof.
  split; [apply contains_sound|].
  intros (pre & post & ->). apply contains_complete.
Qed.

Lemma substring_here (s post : string) :
  String.substring 0 (String.length s) (s ++ post) = s.
Proof.
  induction s as [|x s IH]; simpl.
  - now destruct post.
  - now rewrite IH.
Qed.

Lemma substring_skip (pre s : string) (m : nat) :
  String.substring (String.length pre) m (pre ++ s) = String.substring 0 m s.
Proof.
  induction pre as [|x pre IH]; simpl; [reflexivity | exact IH].
Qed.

Lemma substring_middle (pre s post : string) :
  String.substring (String.length pre) (String.length s) (pre ++ s ++ post)
  = s.
Proof. now rewrite substring_skip, substring_here. Qed.

End Strings.

(** ** Runs of the query handler *)

Section QueryRuns.
Import Py Prog App Obs.

Context {W : Type} (E : env W).

Lemma run_store_raises q w e w1 :
  E (lookup q) w = (inl e, w1) ->
  run E (query q) w = mkOutcome [lookup q] (inl e) w1.
Proof.
  intros H. unfold query, lookup in *. cbn [run]. now rewrite H.
Qed.

Lemma run_context_raises q w r w1 e :
  E (lookup q) w = (inr r, w1) ->
  context r = inl e ->
  run E (query q) w = mkOutcome [lookup q] (inl e) w1.
Proof.
  intros H C. unfold query, lookup in *. cbn [run]. rewrite H.
  unfold eval. rewrite C. reflexivity.
Qed.

Lemma run_backend_raises q w r w1 ctx e w2 :
  E (lookup q) w = (inr r, w1) ->
  context r = inr ctx ->
  E (generation ctx q) w1 = (inl e, w2) ->
  run E (query q) w = mkOutcome [lookup q; generation ctx q] (inl e) w2.
Proof.
  intros H C G. unfold query, lookup, generation in *. cbn [run]. rewrite H.
  unfold eval. rewrite C. cbn [run]. rewrite G. reflexivity.
Qed.

Lemma run_returns q w r w1 ctx a w2 :
  E (lookup q) w = (inr r, w1) ->
  context r = inr ctx ->
  E (generation ctx q) w1 = (inr a, w2) ->
  run E (query q) w
  = mkOutcome [lookup q; generation ctx q] (inr (answer_of a)) w2.
Proof.
  intros H C G. unfold query, lookup, generation in *. cbn [run]. rewrite H.
  unfold eval. rewrite C. cbn [run]. rewrite G. reflexivity.
Qed.

(** Every run of [query] is one of the four above. *)
Lemma run_query_cases q w : query_run E q w (run E (query q) w).
Proof.
  destruct (E (lookup q) w) as [[e|r] w1] eqn:H.
  - rewrite (run_store_raises _ _ _ _ H). now constructor.
  - destruct (context r) as [e|ctx] eqn:C.
    + rewrite (run_context_raises _ _ _ _ _ H C). econstructor 2; eauto.
    + destruct (E (generation ctx q) w1) as [[e|a] w2] eqn:G.
      * rewrite (run_backend_raises _ _ _ _ _ _ _ H C G).
        econstructor 3; eauto.
      * rewrite (run_returns _ _ _ _ _ _ _ H C G). econstructor 4; eauto.
Qed.

End QueryRuns.

(** ** Context extraction *)

Section Context.
Import Py Prog App.

Lemma context_false r :
  truthy (Chroma.documents r) = false -> context r = inr EmptyString.
Proof. unfold context. now intros ->. Qed.

Lemma context_first r T ts rest :
  Chroma.documents r = Some ((T :: ts) :: rest) -> context r = inr T.
Proof. unfold context. now intros ->. Qed.

Lemma context_inner_empty r rest :
  Chroma.documents r = Some ([] :: rest) -> context r = inl IndexError.
Proof. unfold context. now intros ->. Qed.

(** C6: the guard of the context expression looks at the outer
    [documents] list only.  On the result [{"documents": [[]]}] (and on
    any result whose first inner list is empty) the expression raises
    [IndexError]; it yields the empty string whenever [documents] is
    false; and it yields a value exactly when [documents] is absent or
    empty, or its first inner list is non-empty. *)
Theorem context_guards_outer_list_only :
  context (Chroma.mkQueryResult (Some [[]])) = inl IndexError
  /\ (forall rest,
        context (Chroma.mkQueryResult (Some ([] :: rest))) = inl IndexError)
  /\ (forall r, truthy (Chroma.documents r) = false ->
                context r = inr EmptyString)
  /\ (forall r,
        (exists c, context r = inr c)
        <-> (Chroma.documents r = None
             \/ Chroma.documents r = Some []
             \/ exists T ts rest,
                  Chroma.documents r = Some ((T :: ts) :: rest))).
Proof.
  split; [reflexivity|]. split; [reflexivity|].
  split; [exact context_false|].
  intros [[[|[|T ts] rest]|]]; split.
  - intros _. right; left; reflexivity.
  - intros _. now exists EmptyString.
  - intros [c H]. discriminate H.
  - intros [H|[H|(T & ts & rest' & H)]]; discriminate H.
  - intros _. right; right. now exists T, ts, rest.
  - intros _. now exists T.
  - intros _. now left.
  - intros _. now exists EmptyString.
Qed.

End Context.

(** ** The prompt *)

Section Prompt.
Import Py Prog App Obs.

Lemma prompt_parts ctx q :
  prompt ctx q = head_part ++ ctx ++ middle_part ++ q ++ tail_part.
Proof. reflexivity. Qed.

Lemma prompt_context_at ctx q :
  String.substring 9 (String.length ctx) (prompt ctx q) = ctx.
Proof.
  rewrite prompt_parts.
  change 9 with (String.length head_part).
  apply substring_middle.
Qed.

Lemma prompt_question_at ctx q :
  String.substring (9 + String.length ctx + 12) (String.length q)
    (prompt ctx q) = q.
Proof.
  rewrite prompt_parts.
  rewrite <- (append_assoc' ctx), <- (append_assoc' head_part).
  replace (9 + String.length ctx + 12)
    with (String.length (head_part ++ ctx ++ middle_part)).
  - apply substring_middle.
  - rewrite !append_length'. reflexivity.
Qed.

Lemma prompt_contains_context ctx q : contains ctx (prompt ctx q) = true.
Proof. rewrite prompt_parts. apply contains_complete. Qed.

Lemma prompt_contains_question ctx q : contains q (prompt ctx q) = true.
Proof.
  rewrite prompt_parts.
  rewrite <- (append_assoc' ctx), <- (append_assoc' head_part).
  apply contains_complete.
Qed.

End Prompt.

(** ** The query handler *)

Section Query.
Import Py Prog App Obs.

Context {W : Type} (E : env W).

(** C2: when the store's result has a non-empty first document list with
    first text [T], the prompt sent to the generation backend is the
    template filled with [T] and [q]: [T] stands in it verbatim at offset
    9, and the literal question stands after that occurrence, at offset
    [9 + len(T) + 12]. *)
Theorem prompt_has_context_then_question q w r w1 T ts rest :
  E (lookup q) w = (inr r, w1) ->
  Chroma.documents r = Some ((T :: ts) :: rest) ->
  exists p,
    trace (run E (query q) w) = [lookup q; OllamaGenerate model p]
    /\ p = head_part ++ T ++ middle_part ++ q ++ tail_part
    /\ String.substring 9 (String.length T) p = T
    /\ String.substring (9 + String.length T + 12) (String.length q) p = q
    /\ 9 + String.length T <= 9 + String.length T + 12
    /\ contains T p = true
    /\ contains q p = true.
Proof.
  intros H D. pose proof (context_first _ _ _ _ D) as C.
  exists (prompt T q). split.
  - destruct (E (generation T q) w1) as [[e|a] w2] eqn:G.
    + now rewrite (run_backend_raises E _ _ _ _ _ _ _ H C G).
    + now rewrite (run_returns E _ _ _ _ _ _ _ H C G).
  - repeat split.
    + apply prompt_context_at.
    + apply prompt_question_at.
    + lia.
    + apply prompt_contains_context.
    + apply prompt_contains_question.
Qed.

(** C3, amended: when the store's result for the question "anything"
    has an empty or absent [documents] list, the context is the empty
    string and the prompt sent to the generation backend contains
    "Context:", three line feeds, then "Question: anything". *)
Theorem empty_documents_prompt_marker w r w1 :
  E (lookup "anything") w = (inr r, w1) ->
  truthy (Chroma.documents r) = false ->
  context r = inr EmptyString
  /\ exists p,
       trace (run E (query "anything") w)
       = [lookup "anything"; OllamaGenerate model p]
       /\ contains (marker3 "anything") p = true
       /\ String.prefix (marker3 "anything") p = true.
Proof.
  intros H D. pose proof (context_false _ D) as C. split; [exact C|].
  exists (prompt EmptyString "anything"). split; [|split; reflexivity].
  destruct (E (generation EmptyString "anything") w1) as [[e|a] w2] eqn:G.
  - now rewrite (run_backend_raises E _ _ _ _ _ _ _ H C G).
  - now rewrite (run_returns E _ _ _ _ _ _ _ H C G).
Qed.

(** C4: whenever the handler returns, what it returns is the JSON object
    with the single key "answer", whose value is the string the
    generation backend returned for the prompt. *)
Theorem success_returns_answer q w v :
  result (run E (query q) w) = inr v ->
  exists r w1 ctx a w2,
    E (lookup q) w = (inr r, w1)
    /\ context r = inr ctx
    /\ E (generation ctx q) w1 = (inr a, w2)
    /\ v = JObj [("answer", JStr (Ollama.response a))]
    /\ field "answer" v = Some (JStr (Ollama.response a))
    /\ keys v = ["answer"].
Proof.
  intros R. destruct (run_query_cases E q w) as
    [e w1 H|r w1 e H C|r w1 ctx e w2 H C G|r w1 ctx a w2 H C G];
    cbn [result] in R; try discriminate R.
  injection R as <-. exists r, w1, ctx, a, w2. repeat split; assumption.
Qed.

(** C5: an error raised by the store lookup or by the generation call
    escapes the handler as it is: the request ends with that same error and
    no value, in the world the failing call left, and the failing call is
    the last one made (the lookup once, or the lookup once and then the
    generation once). *)
Theorem collaborator_error_propagates q w e w' :
  (E (lookup q) w = (inl e, w')
   \/ exists r w1 ctx,
        E (lookup q) w = (inr r, w1)
        /\ context r = inr ctx
        /\ E (generation ctx q) w1 = (inl e, w')) ->
  result (run E (query q) w) = inl e
  /\ final (run E (query q) w) = w'
  /\ (trace (run E (query q) w) = [lookup q]
      \/ exists ctx,
           trace (run E (query q) w) = [lookup q; generation ctx q])
  /\ List.length (filter is_query (trace (run E (query q) w))) = 1
  /\ List.length (filter is_generate (trace (run E (query q) w))) <= 1.
Proof.
  intros [H|(r & w1 & ctx & H & C & G)].
  - rewrite (run_store_raises E _ _ _ _ H). cbn. auto 6.
  - rewrite (run_backend_raises E _ _ _ _ _ _ _ H C G). cbn.
    repeat split; eauto.
Qed.

(** C9: in every run, whatever the question (the empty string included)
    and whatever the collaborators answer, the handler makes exactly one
    lookup on the store; it is the first call, its query texts are the
    question alone, unchanged, and it asks for one result. *)
Theorem one_lookup_question_unchanged q w :
  filter is_query (trace (run E (query q) w)) = [CollectionQuery [q] 1]
  /\ (exists rest, trace (run E (query q) w) = CollectionQuery [q] 1 :: rest)
  /\ filter is_query (trace (run E (query EmptyString) w))
     = [CollectionQuery [EmptyString] 1].
Proof.
  split; [|split].
  - destruct (run_query_cases E q w); reflexivity.
  - destruct (run_query_cases E q w); cbn [trace]; eauto.
  - destruct (run_query_cases E EmptyString w); reflexivity.
Qed.

Section Unchanged.

Context {S : Type} (view : W -> S).

(** C8: the handler makes no write call on the store (no add, update
    or delete), and when the calls that are not writes leave the
    content of the store as it is, the content after the request is the
    content before it. *)
Theorem query_writes_nothing q w :
  reads_keep E view ->
  Forall (fun c => is_write c = false) (trace (run E (query q) w))
  /\ view (final (run E (query q) w)) = view w.
Proof.
  intros K.
  assert (KQ : forall w e1 w1, E (lookup q) w = (e1, w1) -> view w1 = view w).
  { intros u e1 u1 H. specialize (K (lookup q) u eq_refl).
    now rewrite H in K. }
  assert (KG : forall ctx w e1 w1,
             E (generation ctx q) w = (e1, w1) -> view w1 = view w).
  { intros ctx u e1 u1 H. specialize (K (generation ctx q) u eq_refl).
    now rewrite H in K. }
  destruct (run_query_cases E q w) as
    [e w1 H|r w1 e H C|r w1 ctx e w2 H C G|r w1 ctx a w2 H C G];
    cbn [trace final]; split;
    try (repeat constructor);
    try (apply KQ in H); try (apply KG in G); congruence.
Qed.

(** C7: when the calls that are not writes leave the content of the
    store as it is and the collaborators' answers depend on that content
    alone, a second request with the same question, made in the world the
    first one left, ends like the first: same response (or same error)
    and same calls. *)
Theorem query_twice_same_response q w :
  reads_keep E view -> answers_by_view E view ->
  result (run E (query q) (final (run E (query q) w)))
  = result (run E (query q) w)
  /\ trace (run E (query q) (final (run E (query q) w)))
     = trace (run E (query q) w).
Proof.
  intros K D.
  assert (V : view (final (run E (query q) w)) = view w).
  { destruct (run_query_cases E q w) as
      [e w1 H|r w1 e H C|r w1 ctx e w2 H C G|r w1 ctx a w2 H C G];
      cbn [final];
      pose proof (K (lookup q) w eq_refl) as K1; rewrite H in K1;
      cbn [snd] in K1; try exact K1.
    - pose proof (K (generation ctx q) w1 eq_refl) as K2.
      rewrite G in K2. cbn [snd] in K2. congruence.
    - pose proof (K (generation ctx q) w1 eq_refl) as K2.
      rewrite G in K2. cbn [snd] in K2. congruence. }
  set (w0 := final (run E (query q) w)) in *.
  clearbody w0.
  assert (Q : fst (E (lookup q) w0) = fst (E (lookup q) w))
    by (apply D; [reflexivity | exact V]).
  assert (V1 : view (snd (E (lookup q) w0)) = view (snd (E (lookup q) w)))
    by (rewrite !K by reflexivity; exact V).
  destruct (run_query_cases E q w) as
    [e w1 H|r w1 e H C|r w1 ctx e w2 H C G|r w1 ctx a w2 H C G];
    destruct (E (lookup q) w0) as [x u1] eqn:H0;
    rewrite H in Q, V1; cbn [fst snd] in Q, V1; subst x.
  - now rewrite (run_store_raises E _ _ _ _ H0).
  - now rewrite (run_context_raises E _ _ _ _ _ H0 C).
  - pose proof (D (generation ctx q) u1 w1 eq_refl V1) as Q2.
    rewrite G in Q2. cbn [fst] in Q2.
    destruct (E (generation ctx q) u1) as [y u2] eqn:G0.
    cbn [fst] in Q2; subst y.
    now rewrite (run_backend_raises E _ _ _ _ _ _ _ H0 C G0).
  - pose proof (D (generation ctx q) u1 w1 eq_refl V1) as Q2.
    rewrite G in Q2. cbn [fst] in Q2.
    destruct (E (generation ctx q) u1) as [y u2] eqn:G0.
    cbn [fst] in Q2; subst y.
    now rewrite (run_returns E _ _ _ _ _ _ _ H0 C G0).
Qed.

End Unchanged.

End Query.

(** ** The root handler *)

Section Root.
Import Py Prog App.

(** C10: [root] takes no input, calls no collaborator and leaves the
    world as it is; in every environment and every world it returns the
    same JSON object, whose "message" is a string and whose "endpoints" is
    the object listing POST /query, GET /docs and GET /redoc. *)
Theorem root_fixed_payload :
  exists payload endpoints,
    (forall (W : Type) (E : env W) (w : W),
        run E root w = mkOutcome [] (inr payload) w)
    /\ keys payload = ["message"; "endpoints"]
    /\ field "message" payload = Some (JStr "NextWork RAG API is running")
    /\ field "endpoints" payload = Some (JObj endpoints)
    /\ map fst endpoints = ["POST /query"; "GET /docs"; "GET /redoc"]
    /\ Forall (fun kv => exists s, snd kv = JStr s) endpoints.
Proof.
  eexists. eexists. split; [intros; reflexivity|].
  repeat split. repeat constructor; eexists; reflexivity.
Qed.

End Root.

(** ** Scenarios on the test doubles *)

Section Scenarios.
Import Py Prog App Obs Doubles.

(** [try: ... except ...] is how a body would recover from a call that
    raised; [query] has none. *)
Lemma try_recovers {W A : Type} (E : env W) (e : exn) (a : A) (w : W) :
  run E (Try (Raise e) (fun _ => Ret a)) w = mkOutcome [] (inr a) w.
Proof. reflexivity. Qed.

(** A body that retried the handler would look up twice. *)
Example retry_would_look_up_twice e q :
  trace (run (stub (fails e) echo) (Try (query q) (fun _ => query q)) 0)
  = [lookup q; lookup q].
Proof. reflexivity. Qed.

(** A body that wrote would change the collection. *)
Example add_changes_memory :
  final (run in_memory (Call (CollectionAdd ["1"] [paris])
                          (fun _ => Ret tt)) [])
  = [("1", paris)].
Proof. reflexivity. Qed.

(** The store holds the sentence about Paris and the backend echoes its
    prompt: the answer contains the sentence and the question. *)
Example paris_scenario :
  exists answer,
    result (run in_memory (query capital) [("1", paris)])
    = inr (JObj [("answer", JStr answer)])
    /\ contains paris answer = true
    /\ contains capital answer = true.
Proof. eexists. split; [reflexivity|]. split; reflexivity. Qed.

(** C1: on a result without any match whose [documents] is [[[]]] (one
    empty inner list, as an empty collection answers), the handler does
    not fall back to the empty context: the context expression raises
    [IndexError], no prompt is sent to the backend and the request ends
    with that error. *)
Theorem no_match_inner_empty_raises :
  forall q backend,
    context (Chroma.mkQueryResult (Some [[]])) = inl IndexError
    /\ run (stub (returns (Some [[]])) backend) (query q) 0
       = mkOutcome [lookup q] (inl IndexError) 1
    /\ run in_memory (query q) [] = mkOutcome [lookup q] (inl IndexError) [].
Proof. intros q backend. repeat split. Qed.

(** C3, as stated, fails: with the question "anything" and a store
    result whose [documents] is the empty list, the context is the empty
    string and the prompt sent is the template around it, in which
    "Context:" is followed by three line feeds; the marker with two line
    feeds does not occur in it.  With an empty collection answering
    [[[]]] no prompt is sent at all. *)
Lemma two_newline_marker_absent :
  context (Chroma.mkQueryResult (Some [])) = inr EmptyString
  /\ trace (run (stub (returns (Some [])) echo) (query "anything") 0)
     = [lookup "anything";
        OllamaGenerate model (prompt EmptyString "anything")]
  /\ contains (marker2 "anything") (prompt EmptyString "anything") = false
  /\ ~ (exists pre post,
          prompt EmptyString "anything"
          = pre ++ marker2 "anything" ++ post)
  /\ run in_memory (query "anything") []
     = mkOutcome [lookup "anything"] (inl IndexError) [].
Proof.
  split; [reflexivity|]. split; [reflexivity|].
  assert (N : contains (marker2 "anything") (prompt EmptyString "anything")
              = false) by reflexivity.
  split; [exact N|]. split; [|reflexivity].
  intros H. apply contains_spec in H. rewrite N in H. discriminate H.
Qed.

End Scenarios.

(** ** Witnesses *)

Section Witnesses.
Import Py Prog App Obs Doubles.

Lemma in_memory_reads_keep : reads_keep in_memory (fun m => m).
Proof. intros [] m H; try discriminate H; reflexivity. Defined.

Lemma in_memory_answers_by_view : answers_by_view in_memory (fun m => m).
Proof. intros c m1 m2 _ H. cbn in H. now subst m2. Defined.

Lemma stub_reads_keep store backend :
  reads_keep (stub store backend) (fun _ => tt).
Proof. intros c n _. reflexivity. Defined.

Lemma stub_answers_by_view store backend :
  answers_by_view (stub store backend) (fun _ => tt).
Proof. intros [] n1 n2 _ _; reflexivity. Defined.

Lemma prompt_has_context_then_question_witness :
  stub (returns (Some [[paris]])) echo (lookup capital) 0
  = (inr (Chroma.mkQueryResult (Some [[paris]])), 1)
  /\ exists p,
       trace (run (stub (returns (Some [[paris]])) echo) (query capital) 0)
       = [lookup capital; OllamaGenerate model p]
       /\ p = head_part ++ paris ++ middle_part ++ capital ++ tail_part
       /\ String.substring 9 (String.length paris) p = paris
       /\ String.substring (9 + String.length paris + 12)
            (String.length capital) p = capital
       /\ 9 + String.length paris <= 9 + String.length paris + 12
       /\ contains paris p = true
       /\ contains capital p = true.
Proof.
  split; [reflexivity|].
  apply (prompt_has_context_then_question
           (stub (returns (Some [[paris]])) echo) capital 0
           (Chroma.mkQueryResult (Some [[paris]])) 1 paris [] []);
    reflexivity.
Defined.

Lemma empty_documents_prompt_marker_witness :
  truthy (Chroma.documents (Chroma.mkQueryResult (Some []))) = false
  /\ context (Chroma.mkQueryResult (Some [])) = inr EmptyString
  /\ exists p,
       trace (run (stub (returns (Some [])) echo) (query "anything") 0)
       = [lookup "anything"; OllamaGenerate model p]
       /\ contains (marker3 "anything") p = true
       /\ String.prefix (marker3 "anything") p = true.
Proof.
  split; [reflexivity|].
  apply (empty_documents_prompt_marker
           (stub (returns (Some [])) echo) 0
           (Chroma.mkQueryResult (Some [])) 1); reflexivity.
Defined.

Lemma success_returns_answer_witness :
  result (run in_memory (query capital) [("1", paris)])
  = inr (answer_of (Ollama.mkGenerateResponse (prompt paris capital)))
  /\ exists r w1 ctx a w2,
       in_memory (lookup capital) [("1", paris)] = (inr r, w1)
       /\ context r = inr ctx
       /\ in_memory (generation ctx capital) w1 = (inr a, w2)
       /\ answer_of (Ollama.mkGenerateResponse (prompt paris capital))
          = JObj [("answer", JStr (Ollama.response a))]
       /\ field "answer"
            (answer_of (Ollama.mkGenerateResponse (prompt paris capital)))
          = Some (JStr (Ollama.response a))
       /\ keys (answer_of (Ollama.mkGenerateResponse (prompt paris capital)))
          = ["answer"].
Proof.
  split; [reflexivity|].
  apply (success_returns_answer in_memory capital [("1", paris)]
           (answer_of (Ollama.mkGenerateResponse (prompt paris capital)))).
  reflexivity.
Defined.

Lemma collaborator_error_propagates_witness :
  (result (run (stub (fails (ConnectionError "store unreachable")) echo)
             (query capital) 0)
   = inl (ConnectionError "store unreachable"))
  /\ (result (run (stub (returns (Some [[paris]]))
                     (down (RuntimeError "model not found")))
                (query capital) 0)
      = inl (RuntimeError "model not found")).
Proof.
  split.
  - apply (collaborator_error_propagates
             (stub (fails (ConnectionError "store unreachable")) echo)
             capital 0 (ConnectionError "store unreachable") 1).
    left. reflexivity.
  - apply (collaborator_error_propagates
             (stub (returns (Some [[paris]]))
                (down (RuntimeError "model not found")))
             capital 0 (RuntimeError "model not found") 2).
    right. exists (Chroma.mkQueryResult (Some [[paris]])), 1, paris.
    repeat split.
Defined.

Lemma query_writes_nothing_witness :
  reads_keep in_memory (fun m => m)
  /\ Forall (fun c => is_write c = false)
       (trace (run in_memory (query capital) [("1", paris)]))
  /\ final (run in_memory (query capital) [("1", paris)]) = [("1", paris)].
Proof.
  split; [exact in_memory_reads_keep|].
  apply (query_writes_nothing in_memory (fun m => m) capital [("1", paris)]
           in_memory_reads_keep).
Defined.

(** The second request starts in another world than the first (two more
    calls have been served) and still ends the same. *)
Lemma query_twice_same_response_witness :
  reads_keep (stub (returns (Some [[paris]])) echo) (fun _ => tt)
  /\ answers_by_view (stub (returns (Some [[paris]])) echo) (fun _ => tt)
  /\ final (run (stub (returns (Some [[paris]])) echo) (query capital) 0) = 2
  /\ result (run (stub (returns (Some [[paris]])) echo) (query capital) 2)
     = result (run (stub (returns (Some [[paris]])) echo) (query capital) 0)
  /\ result (run in_memory (query capital)
               (final (run in_memory (query capital) [("1", paris)])))
     = result (run in_memory (query capital) [("1", paris)]).
Proof.
  split; [exact (stub_reads_keep _ _)|].
  split; [exact (stub_answers_by_view _ _)|].
  split; [reflexivity|].
  split.
  - apply (query_twice_same_response
             (stub (returns (Some [[paris]])) echo) (fun _ => tt) capital 0
             (stub_reads_keep _ _) (stub_answers_by_view _ _)).
  - apply (query_twice_same_response in_memory (fun m => m) capital
             [("1", paris)] in_memory_reads_keep in_memory_answers_by_view).
Defined.

End Witnesses.

(** ** More on the prompt template *)

Section Template.
Import Py Prog App Obs.

Lemma append_cancel_l (a b c : string) : a ++ b = a ++ c -> b = c.
Proof.
  induction a as [|x a IH]; cbn [append]; intros H; [exact H|].
  injection H as H. exact (IH H).
Qed.

Lemma append_self_r (b s : string) : s = b ++ s -> b = EmptyString.
Proof.
  intros H. apply (f_equal String.length) in H.
  rewrite append_length' in H.
  destruct b; [reflexivity | cbn [String.length] in H; lia].
Qed.

Lemma append_cancel_r (a b s : string) : a ++ s = b ++ s -> a = b.
Proof.
  revert b; induction a as [|x a IH]; intros b H.
  - cbn [append] in H. symmetry. exact (append_self_r _ _ H).
  - destruct b as [|y b].
    + cbn [append] in H. symmetry in H.
      pose proof (append_self_r (String x a) s H) as N. discriminate N.
    + cbn [append] in H. injection H as -> H. now rewrite (IH _ H).
Qed.

Lemma prompt_length ctx q :
  String.length (prompt ctx q) = 52 + String.length ctx + String.length q.
Proof.
  rewrite prompt_parts, !append_length'.
  change (String.length head_part) with 9.
  change (String.length middle_part) with 12.
  change (String.length tail_part) with 31. lia.
Qed.

Lemma prompt_question_injective ctx q q' :
  prompt ctx q = prompt ctx q' -> q = q'.
Proof.
  rewrite !prompt_parts. intros H.
  do 3 apply append_cancel_l in H.
  exact (append_cancel_r _ _ _ H).
Qed.

Lemma prompt_context_injective ctx ctx' q :
  prompt ctx q = prompt ctx' q -> ctx = ctx'.
Proof.
  rewrite !prompt_parts. intros H.
  apply append_cancel_l in H.
  exact (append_cancel_r _ _ _ H).
Qed.

(** X3: for a fixed context, two questions give the same prompt only when
    they are the same question; for a fixed question, two contexts give the
    same prompt only when they are the same context. *)
Theorem prompt_injective_in_each_argument ctx ctx' q q' :
  (prompt ctx q = prompt ctx q' <-> q = q')
  /\ (prompt ctx q = prompt ctx' q <-> ctx = ctx').
Proof.
  split; split.
  - apply prompt_question_injective.
  - now intros ->.
  - apply prompt_context_injective.
  - now intros ->.
Qed.

(** X4: the template does not delimit the context from the question.  A
    context that ends with two line feeds, "Question: " and a text [b] gives,
    with the question [c], the very prompt that the context without that
    ending gives with the question [b], two line feeds, "Question: " and
    [c]; the two contexts differ and the two questions differ. *)
Theorem prompt_boundary_ambiguous (a b c : string) :
  prompt (a ++ middle_part ++ b) c = prompt a (b ++ middle_part ++ c)
  /\ a ++ middle_part ++ b <> a
  /\ b ++ middle_part ++ c <> c.
Proof.
  split; [|split].
  - rewrite !prompt_parts, !append_assoc'. reflexivity.
  - intros H. apply (f_equal String.length) in H.
    rewrite !append_length' in H.
    change (String.length middle_part) with 12 in H. lia.
  - intros H. apply (f_equal String.length) in H.
    rewrite !append_length' in H.
    change (String.length middle_part) with 12 in H. lia.
Qed.

End Template.

(** ** More on the query handler *)

Section Failures.
Import Py Prog App Obs Doubles.

Context {W : Type} (E : env W).


Lemma context_empty_text r :
  context r = inr EmptyString
  <-> truthy (Chroma.documents r) = false
      \/ exists ts rest,
           Chroma.documents r = Some ((EmptyString :: ts) :: rest).
Proof.
  destruct r as [[[|[|T ts] rest]|]]; unfold context; cbn; split; intros H;
    try (now left); try reflexivity; try discriminate H.
  - destruct H as [H|(ts & rest' & H)]; discriminate H.
  - injection H as ->. right. now exists ts, rest.
  - destruct H as [H|(ts' & rest' & H)]; [discriminate H|].
    now injection H as -> _ _.
Qed.


(** X2: the generation backend is called in a request exactly when the
    lookup replied and the context expression has a value; it is then
    called once, with the model "tinyllama" and the template filled with
    that value and the question. *)
Theorem generation_needs_context q w :
  ((exists c, In c (trace (run E (query q) w)) /\ is_generate c = true)
   <-> exists r w1 ctx,
         E (lookup q) w = (inr r, w1) /\ context r = inr ctx)
  /\ (forall c,
        In c (trace (run E (query q) w)) -> is_generate c = true ->
        exists r w1 ctx,
          E (lookup q) w = (inr r, w1)
          /\ context r = inr ctx
          /\ c = OllamaGenerate "tinyllama" (prompt ctx q))
  /\ List.length (filter is_generate (trace (run E (query q) w))) <= 1.
Proof.
  destruct (run_query_cases E q w) as
    [e w1 H|r w1 e H C|r w1 ctx e w2 H C G|r w1 ctx a w2 H C G];
    cbn [trace]; (split; [split|split]).
  all: try (cbn; lia).
  all: try (intros (c & [<-|[<-|[]]] & G'); try discriminate G';
            now exists r, w1, ctx).
  all: try (intros c [<-|[<-|[]]] G'; try discriminate G';
            now exists r, w1, ctx).
  all: try (intros _; exists (generation ctx q); split;
            [right; left; reflexivity | reflexivity]).
  all: try (intros (c & [<-|[]] & G'); discriminate G').
  all: try (intros c [<-|[]] G'; discriminate G').
  all: intros (r' & w1' & ctx' & H' & C'); congruence.
Qed.

(** X5: a first document that is the empty text is handled like no match
    at all: once the lookup has replied, the prompt built around the empty
    context is what goes to the backend exactly when [documents] is absent
    or empty, or its first text is the empty string. *)
Theorem empty_text_like_no_match q w r w1 :
  E (lookup q) w = (inr r, w1) ->
  (In (generation EmptyString q) (trace (run E (query q) w))
   <-> truthy (Chroma.documents r) = false
       \/ exists ts rest,
            Chroma.documents r = Some ((EmptyString :: ts) :: rest)).
Proof.
  intros H0. rewrite <- context_empty_text.
  destruct (run_query_cases E q w) as
    [e w1' H|r' w1' e H C|r' w1' ctx e w2 H C G|r' w1' ctx a w2 H C G];
    cbn [trace]; rewrite H0 in H; try discriminate H;
    injection H as <- <-; split.
  - intros [N|[]]. discriminate N.
  - intros C'. congruence.
  - intros [N|[N|[]]]; [discriminate N|].
    assert (P : prompt EmptyString q = prompt ctx q)
      by (unfold generation in N; congruence).
    apply prompt_context_injective in P. now subst ctx.
  - intros C'. right; left. congruence.
  - intros [N|[N|[]]]; [discriminate N|].
    assert (P : prompt EmptyString q = prompt ctx q)
      by (unfold generation in N; congruence).
    apply prompt_context_injective in P. now subst ctx.
  - intros C'. right; left. congruence.
Qed.

End Failures.

Section MoreWitnesses.
Import Py Prog App Obs Doubles.


Lemma empty_text_like_no_match_witness :
  stub (returns (Some [[EmptyString; paris]])) echo (lookup capital) 0
  = (inr (Chroma.mkQueryResult (Some [[EmptyString; paris]])), 1)
  /\ In (generation EmptyString capital)
       (trace (run (stub (returns (Some [[EmptyString; paris]])) echo)
                 (query capital) 0)).
Proof.
  split; [reflexivity|].
  apply (empty_text_like_no_match
           (stub (returns (Some [[EmptyString; paris]])) echo) capital 0
           (Chroma.mkQueryResult (Some [[EmptyString; paris]])) 1).
  - reflexivity.
  - right. exists [paris], []. reflexivity.
Defined.

End MoreWitnesses.
